(** * Hourly history assembly of [aqi_prediction/data/external_apis.py]

    A shallow embedding of [get_air_pollution_history] and
    [get_weather_history]: the part of each function that turns the
    response of the Open-Meteo client ([response.Hourly()]) into the
    returned dictionary.  The dictionary is a Python [dict] (insertion
    ordered, allocated on the object store); its ["date"] entry is the
    [DatetimeIndex] built by [pd.date_range], the other entries are the
    value arrays of the response, bound to the requested names.

    The HTTP client (cache session, retry policy, request) is an external
    collaborator: it appears as a section variable, and the request
    parameters are kept because they fix the order of the variables.  The
    release of pandas the code runs on is not fixed by the repository; what
    the releases do differently is a parameter too. *)

From Stdlib Require Import ZArith List String Lia.
From stdpp Require Import gmap strings list fin_maps.

Local Open Scope string_scope.
Local Open Scope Z_scope.

(** ** Exceptions and results *)

(** The exception classes a call can end with.  The first four are raised
    by the libraries the source calls; the last four are the error kinds
    named by the specification's contract, which no statement of the
    source raises. *)
Inductive exception : Type :=
  | OutOfBoundsDatetime            (* pandas: an instant it cannot hold *)
  | ZeroDivisionError              (* pandas: range generation, zero stride *)
  | TypeError                      (* pandas: time zones differ; SDK: stray read *)
  | IndexError                     (* responses[0] on an empty list *)
  | InvalidIntervalError
  | InconsistentSeriesLengthError
  | InvalidRangeError
  | UpstreamFetchError.

Inductive result (A : Type) : Type :=
  | Ok (a : A)
  | Raise (e : exception).
Arguments Ok {A} a.
Arguments Raise {A} e.

(** ** pandas: timestamps and [date_range] *)

Module pd.

Inductive tzinfo : Type := UTC.

#[global] Instance tzinfo_eq_dec : EqDecision tzinfo.
Proof. solve_decision. Defined.

(** A [Timestamp]: nanoseconds since the epoch, and the time zone it is
    aware of ([None] for a naive timestamp). *)
Record Timestamp : Type := mkTimestamp { value : Z; tz : option tzinfo }.

Definition nanos_per_second : Z := 1000000000.

(** What the releases of pandas do differently, as far as the two functions
    can tell: whether a range whose end equals its start keeps that instant
    when one side is open (2.x keeps it, 3.x drops it), and the instants a
    [Timestamp] can hold, in nanoseconds since the epoch. *)
Record release : Type := mkRelease {
  keeps_equal_endpoints : bool;
  min_value : Z;
  max_value : Z
}.

(** Release 2.x: nanoseconds in a signed 64-bit integer, the least value
    being kept for [NaT]. *)
Definition pandas_2 : release :=
  {| keeps_equal_endpoints := true;
     min_value := -9223372036854775807;
     max_value := 9223372036854775807 |}.

(** The seconds since the epoch that a release can hold as a [Timestamp]. *)
Definition representable (r : release) (seconds : Z) : Prop :=
  min_value r <= seconds * nanos_per_second <= max_value r.

(** The UTC timestamp of a number of seconds since the epoch. *)
Definition utc_instant (seconds : Z) : Timestamp :=
  {| value := seconds * nanos_per_second; tz := Some UTC |}.

(** [pd.to_datetime(arg, unit="s", utc=...)] on an integer: the instant, or
    [OutOfBoundsDatetime] when the release cannot hold it. *)
Definition to_datetime (r : release) (arg : Z) (utc : bool) : result Timestamp :=
  if (min_value r <=? arg * nanos_per_second)
     && (arg * nanos_per_second <=? max_value r)
  then Ok {| value := arg * nanos_per_second;
             tz := if utc then Some UTC else None |}
  else Raise OutOfBoundsDatetime.

(** [pd.Timedelta(seconds=...)], as nanoseconds. *)
Definition Timedelta (seconds : Z) : Z := seconds * nanos_per_second.

(** A [DatetimeIndex]: the nanosecond values and the common time zone. *)
Record DatetimeIndex : Type :=
  mkDatetimeIndex { i8values : list Z; index_tz : option tzinfo }.

(** [index[k]] *)
Definition getitem (index : DatetimeIndex) (k : nat) : option Timestamp :=
  (fun v => {| value := v; tz := index_tz index |}) <$> i8values index !! k.

(** [list(index)] *)
Definition to_list (index : DatetimeIndex) : list Timestamp :=
  (fun v => {| value := v; tz := index_tz index |}) <$> i8values index.

Inductive inclusive : Type := both | neither | closed_left | closed_right.

(** [validate_inclusive]: (left_inclusive, right_inclusive) *)
Definition validate_inclusive (i : inclusive) : bool * bool :=
  match i with
  | both => (true, true)
  | neither => (false, false)
  | closed_left => (true, false)
  | closed_right => (false, true)
  end.

(** Ceiling of [a / b], for [b] of either sign. *)
Definition cdiv (a b : Z) : Z := - ((- a) / b).

(** [np.arange(start, stop, step)] on integers, [step] not zero:
    [ceil((stop - start) / step)] elements (none when that is not
    positive), the k-th being [start + k * step]. *)
Definition arange (start stop step : Z) : list Z :=
  (fun k => start + k * step) <$> seqZ 0 (cdiv (stop - start) step).

(** [generate_regular_range] with both end points and no [periods].
    [//] is Python's floor division, which is [Z.div].  The stop value and
    the elements are computed without a bound here; the library computes
    them in 64 bits. *)
Definition generate_regular_range (istart iend stride : Z) : result (list Z) :=
  if stride =? 0 then Raise ZeroDivisionError
  else
    let b := istart in
    let e := b + (iend - b) / stride * stride + stride / 2 + 1 in
    Ok (arange b e stride).

(** [values[1:]] and [values[:-1]] *)
Definition drop_first (values : list Z) : list Z := drop 1 values.
Definition drop_last (values : list Z) : list Z :=
  take (length values - 1)%nat values.

(** The trimming of the end points at the end of
    [DatetimeArray._generate_range].  A release that keeps equal end points
    trims nothing when the end equals the start, unless both sides are
    open. *)
Definition trim_endpoints (r : release) (start_i8 end_i8 : Z) (incl : inclusive)
    (values : list Z) : list Z :=
  let '(left_inclusive, right_inclusive) := validate_inclusive incl in
  if keeps_equal_endpoints r && (start_i8 =? end_i8) then
    if negb left_inclusive && negb right_inclusive
    then drop_last (drop_first values)
    else values
  else
    let values :=
      match head values with
      | Some v0 =>
          if negb left_inclusive && (v0 =? start_i8)
          then drop_first values else values
      | None => values
      end in
    match last values with
    | Some vn =>
        if negb right_inclusive && (vn =? end_i8)
        then drop_last values else values
    | None => values
    end.

(** [pd.date_range(start=, end=, freq=, inclusive=)] with a fixed
    frequency given as a [Timedelta].  The two end points must agree on
    their time zone, which becomes the zone of the index. *)
Definition date_range (r : release) (start end_ : Timestamp) (freq : Z)
    (incl : inclusive) : result DatetimeIndex :=
  if decide (tz start = tz end_) then
    match generate_regular_range (value start) (value end_) freq with
    | Ok values =>
        Ok {| i8values := trim_endpoints r (value start) (value end_) incl values;
              index_tz := tz start |}
    | Raise e => Raise e
    end
  else Raise TypeError.

End pd.


(** ** Python objects: dictionaries on the object store *)

Section Source.

(** Python's [float] (the coordinates) and the element type of the value
    arrays (numpy [float32]); the code never looks inside either. *)
Context {float64 float32 : Type}.

(** The release of pandas in use. *)
Variable pandas : pd.release.

Definition ndarray : Type := list float32.

(** What the returned dictionary holds: the [DatetimeIndex] under ["date"]
    and, per variable, what [ValuesAsNumpy()] gave: an array, or the
    integer the SDK returns in place of a missing one. *)
Inductive object : Type :=
  | Index (index : pd.DatetimeIndex)
  | Array (a : ndarray)
  | Int (n : Z).

(** A [dict]: keys in insertion order, one entry per key. *)
Definition dict : Type := list (string * object).

(** [d[key]] *)
Fixpoint dict_get (d : dict) (key : string) : option object :=
  match d with
  | [] => None
  | (k, x) :: d' => if String.eqb k key then Some x else dict_get d' key
  end.

(** [d[key] = v]: an existing key keeps its place, a new one goes last. *)
Fixpoint dict_set (key : string) (v : object) (d : dict) : dict :=
  match d with
  | [] => [(key, v)]
  | (k, x) :: d' =>
      if String.eqb k key then (k, v) :: d' else (k, x) :: dict_set key v d'
  end.

(** [list(d.keys())] *)
Definition keys (d : dict) : list string := d.*1.

(** [d[key][k]] for an array entry, [d[key][k]] for the index entry. *)
Definition array_item (d : dict) (key : string) (k : nat) : option float32 :=
  match dict_get d key with
  | Some (Array a) => a !! k
  | _ => None
  end.

Definition index_item (d : dict) (key : string) (k : nat) : option pd.Timestamp :=
  match dict_get d key with
  | Some (Index index) => pd.getitem index k
  | _ => None
  end.

(** [len(d[key])] *)
Definition column_len (d : dict) (key : string) : option nat :=
  match dict_get d key with
  | Some (Array a) => Some (length a)
  | Some (Index index) => Some (length (pd.i8values index))
  | _ => None
  end.

(** The object store: the dictionaries that exist, by reference. *)
Definition loc : Type := positive.
Local Abbreviation store := (gmap loc dict).

(** Computations that read and extend the store and may raise. *)
Definition M (A : Type) : Type := store -> result A * store.

Definition ret {A} (a : A) : M A := fun s => (Ok a, s).
Definition raise {A} (e : exception) : M A := fun s => (Raise e, s).
Definition bind {A B} (m : M A) (k : A -> M B) : M B :=
  fun s =>
    match m s with
    | (Ok a, s') => k a s'
    | (Raise e, s') => (Raise e, s')
    end.
Definition lift {A} (r : result A) : M A := fun s => (r, s).

Notation "x <- m ;; k" := (bind m (fun x => k))
  (at level 100, m at next level, right associativity).
Notation "m ;;; k" := (bind m (fun _ => k))
  (at level 100, right associativity).

(** A dictionary display [{key: v}]: a new object. *)
Definition new_dict (key : string) (v : object) : M loc :=
  fun s => let l := fresh (dom s) in (Ok l, <[l := [(key, v)]]> s).

(** [ref[key] = v] *)
Definition setitem (ref : loc) (key : string) (v : object) : M unit :=
  fun s => (Ok tt, alter (dict_set key v) ref s).

(** What a finished call leaves to its caller: the contents of the returned
    dictionary, or the exception. *)
Definition outcome (r : result loc * store) : result (option dict) :=
  match r with
  | (Ok l, s) => Ok (s !! l)
  | (Raise e, _) => Raise e
  end.

(** ** The Open-Meteo SDK: the hourly block of a response *)

(** A variable: its vector of values, when it has one. *)
Record VariableWithValues : Type := { values : option ndarray }.

(** [variable.ValuesAsNumpy()]: the array, or [0] for a variable without a
    vector of values. *)
Definition ValuesAsNumpy (v : VariableWithValues) : object :=
  match values v with
  | Some a => Array a
  | None => Int 0
  end.

(** The hourly block.  [Time] and [TimeEnd] are 64-bit and [Interval] is a
    32-bit integer in the SDK; a response is taken to carry its hourly
    block and its vector of variables. *)
Record VariablesWithTime : Type := {
  Time : Z;                            (* seconds since the epoch *)
  TimeEnd : Z;
  Interval : Z;                        (* seconds *)
  variables : list VariableWithValues
}.

Record WeatherApiResponse : Type := { Hourly : VariablesWithTime }.

(** [hourly.Variables(j)].  The SDK does not check [j] against the length
    of the vector; the stray read fails, and the model ends the call there
    with a [TypeError]. *)
Definition Variables (hourly : VariablesWithTime) (j : nat) : M VariableWithValues :=
  match variables hourly !! j with
  | Some v => ret v
  | None => raise TypeError
  end.

(** ** The request *)

Record Params : Type := {
  latitude : float64;
  longitude : float64;
  start_date : string;
  end_date : string;
  hourly : list string
}.

Definition air_quality_url : string :=
  "https://air-quality-api.open-meteo.com/v1/air-quality".
Definition archive_url : string :=
  "https://archive-api.open-meteo.com/v1/archive".

(** The ["hourly"] lists of the two requests. *)
Definition air_quality_hourly : list string :=
  ["pm10"; "pm2_5"; "sulphur_dioxide"; "nitrogen_dioxide"; "ozone";
   "carbon_monoxide"; "european_aqi"].

Definition archive_hourly : list string :=
  ["temperature_2m"; "relative_humidity_2m"; "rain"; "dew_point_2m"].

Definition air_quality_params (lat lon : float64) (start end_ : string) : Params :=
  {| latitude := lat; longitude := lon; start_date := start; end_date := end_;
     hourly := air_quality_hourly |}.

Definition archive_params (lat lon : float64) (start end_ : string) : Params :=
  {| latitude := lat; longitude := lon; start_date := start; end_date := end_;
     hourly := archive_hourly |}.

(** ** The two functions *)

(** The ["date"] entry of both functions: the two end points are converted
    first, the start before the end, then the range is generated. *)
Definition hourly_date_range (h : VariablesWithTime) : result pd.DatetimeIndex :=
  match pd.to_datetime pandas (Time h) true with
  | Raise e => Raise e
  | Ok start =>
      match pd.to_datetime pandas (TimeEnd h) true with
      | Raise e => Raise e
      | Ok end_ =>
          pd.date_range pandas start end_ (pd.Timedelta (Interval h)) pd.closed_left
      end
  end.

(** [get_air_pollution_history] from [hourly = response.Hourly()] on. *)
Definition air_pollution_hourly_data (h : VariablesWithTime) : M loc :=
  v0 <- Variables h 0 ;; let hourly_pm10 := ValuesAsNumpy v0 in
  v1 <- Variables h 1 ;; let hourly_pm2_5 := ValuesAsNumpy v1 in
  v2 <- Variables h 2 ;; let hourly_sulphur_dioxide := ValuesAsNumpy v2 in
  v3 <- Variables h 3 ;; let hourly_nitrogen_dioxide := ValuesAsNumpy v3 in
  v4 <- Variables h 4 ;; let hourly_ozone := ValuesAsNumpy v4 in
  v5 <- Variables h 5 ;; let hourly_carbon_monoxide := ValuesAsNumpy v5 in
  v6 <- Variables h 6 ;; let hourly_european_aqi := ValuesAsNumpy v6 in
  date <- lift (hourly_date_range h) ;;
  hourly_data <- new_dict "date" (Index date) ;;
  setitem hourly_data "pm10" hourly_pm10 ;;;
  setitem hourly_data "pm2_5" hourly_pm2_5 ;;;
  setitem hourly_data "sulphur_dioxide" hourly_sulphur_dioxide ;;;
  setitem hourly_data "nitrogen_dioxide" hourly_nitrogen_dioxide ;;;
  setitem hourly_data "ozone" hourly_ozone ;;;
  setitem hourly_data "carbon_monoxide" hourly_carbon_monoxide ;;;
  setitem hourly_data "european_aqi" hourly_european_aqi ;;;
  ret hourly_data.

(** [get_weather_history] from [hourly = response.Hourly()] on. *)
Definition weather_hourly_data (h : VariablesWithTime) : M loc :=
  v0 <- Variables h 0 ;; let hourly_temperature_2m := ValuesAsNumpy v0 in
  v1 <- Variables h 1 ;; let hourly_relative_humidity_2m := ValuesAsNumpy v1 in
  v2 <- Variables h 2 ;; let hourly_rain := ValuesAsNumpy v2 in
  v3 <- Variables h 3 ;; let hourly_dew_point_2m := ValuesAsNumpy v3 in
  date <- lift (hourly_date_range h) ;;
  hourly_data <- new_dict "date" (Index date) ;;
  setitem hourly_data "temperature_2m" hourly_temperature_2m ;;;
  setitem hourly_data "relative_humidity_2m" hourly_relative_humidity_2m ;;;
  setitem hourly_data "rain" hourly_rain ;;;
  setitem hourly_data "dew_point_2m" hourly_dew_point_2m ;;;
  ret hourly_data.

(** The two functions side by side: which request each sends and which
    dictionary each builds. *)
Inductive endpoint : Type := air_quality | archive.

Definition requested (ep : endpoint) : list string :=
  match ep with
  | air_quality => air_quality_hourly
  | archive => archive_hourly
  end.

Definition hourly_data (ep : endpoint) (h : VariablesWithTime) : M loc :=
  match ep with
  | air_quality => air_pollution_hourly_data h
  | archive => weather_hourly_data h
  end.

(** The entries a call adds after ["date"]: the requested names, each with
    what the variable at its position gave. *)
Definition columns (ep : endpoint) (h : VariablesWithTime) : dict :=
  zip (requested ep) (ValuesAsNumpy <$> variables h).

(** The time axis in the specification's words: the [n] instants
    [start_time + k * interval_seconds], [k = 0 .. n-1], as UTC timestamps. *)
Definition spec_axis (start_time interval_seconds n : Z) : list pd.Timestamp :=
  (fun k => pd.utc_instant (start_time + k * interval_seconds)) <$> seqZ 0 n.

(** The responses whose instants the release can hold: the start, and the
    end with two intervals of room on either side, which is where the stop
    value of the range generation lies. *)
Definition in_range (h : VariablesWithTime) : Prop :=
  pd.representable pandas (Time h)
  /\ pd.representable pandas (TimeEnd h - 2 * Z.abs (Interval h))
  /\ pd.representable pandas (TimeEnd h + 2 * Z.abs (Interval h)).

(** [openmeteo.weather_api(url, params=params)], with the cache and retry
    sessions behind it. *)
Variable weather_api : string -> Params -> M (list WeatherApiResponse).

(** [responses[0]] *)
Definition first_response (responses : list WeatherApiResponse) : M WeatherApiResponse :=
  match responses with
  | response :: _ => ret response
  | [] => raise IndexError
  end.

Definition get_air_pollution_history (lat lon : float64) (start end_ : string) : M loc :=
  responses <- weather_api air_quality_url (air_quality_params lat lon start end_) ;;
  response <- first_response responses ;;
  air_pollution_hourly_data (Hourly response).

Definition get_weather_history (lat lon : float64) (start end_ : string) : M loc :=
  responses <- weather_api archive_url (archive_params lat lon start end_) ;;
  response <- first_response responses ;;
  weather_hourly_data (Hourly response).

(** The two functions by endpoint: the URL each asks, the request each
    sends and the call itself. *)
Definition url (ep : endpoint) : string :=
  match ep with
  | air_quality => air_quality_url
  | archive => archive_url
  end.

Definition params (ep : endpoint) (lat lon : float64) (start end_ : string) : Params :=
  match ep with
  | air_quality => air_quality_params lat lon start end_
  | archive => archive_params lat lon start end_
  end.

Definition get_history (ep : endpoint) (lat lon : float64) (start end_ : string) : M loc :=
  match ep with
  | air_quality => get_air_pollution_history lat lon start end_
  | archive => get_weather_history lat lon start end_
  end.

End Source.

(** ** Sample responses

    Array elements are written as integers standing for the [float32]
    values. *)

Definition sample_variable (a : list Z) : VariableWithValues :=
  {| values := Some a |}.

(** Three hourly samples of the four weather variables. *)
Definition three_hours : VariablesWithTime :=
  {| Time := 0; TimeEnd := 10800; Interval := 3600;
     variables := [sample_variable [1; 2; 3]; sample_variable [4; 5; 6];
                   sample_variable [7; 8; 9]; sample_variable [10; 11; 12]] |}.

(** Two hourly samples of the seven air-quality variables. *)
Definition air_two_hours : VariablesWithTime :=
  {| Time := 0; TimeEnd := 7200; Interval := 3600;
     variables := [sample_variable [1; 2]; sample_variable [3; 4];
                   sample_variable [5; 6]; sample_variable [7; 8];
                   sample_variable [9; 10]; sample_variable [11; 12];
                   sample_variable [13; 14]] |}.

(** A span of 10 seconds sampled every 3 seconds, with
    [floor(10 / 3) = 3] values per variable. *)
Definition unaligned : VariablesWithTime :=
  {| Time := 0; TimeEnd := 10; Interval := 3;
     variables := [sample_variable [1; 2; 3]; sample_variable [4; 5; 6];
                   sample_variable [7; 8; 9]; sample_variable [10; 11; 12]] |}.

(** Two and a half hours sampled hourly, with [floor(9000 / 3600) = 2]
    values per variable. *)
Definition air_unaligned : VariablesWithTime :=
  {| Time := 0; TimeEnd := 9000; Interval := 3600;
     variables := variables air_two_hours |}.

Definition negative_interval : VariablesWithTime :=
  {| Time := 0; TimeEnd := 10800; Interval := -3600;
     variables := variables three_hours |}.

Definition zero_interval : VariablesWithTime :=
  {| Time := 0; TimeEnd := 10800; Interval := 0;
     variables := variables three_hours |}.

(** Five hours, the second variable one value short. *)
Definition lengths_5_4 : VariablesWithTime :=
  {| Time := 0; TimeEnd := 18000; Interval := 3600;
     variables := [sample_variable [1; 2; 3; 4; 5]; sample_variable [6; 7; 8; 9];
                   sample_variable [1; 2; 3; 4; 5]; sample_variable [1; 2; 3; 4; 5]] |}.

(** The end three hours before the start. *)
Definition backwards : VariablesWithTime :=
  {| Time := 10800; TimeEnd := 0; Interval := 3600;
     variables := variables three_hours |}.

Definition empty_store : gmap loc (@dict Z) := ∅.

(** Three hours counted down from the start, the interval negative. *)
Definition descending : VariablesWithTime :=
  {| Time := 10800; TimeEnd := 0; Interval := -3600;
     variables := variables three_hours |}.


(** Three hourly samples of the seven air-quality variables. *)
Definition air_three_hours : VariablesWithTime :=
  {| Time := 0; TimeEnd := 10800; Interval := 3600;
     variables := [sample_variable [1; 2; 3]; sample_variable [4; 5; 6];
                   sample_variable [7; 8; 9]; sample_variable [10; 11; 12];
                   sample_variable [13; 14; 15]; sample_variable [16; 17; 18];
                   sample_variable [19; 20; 21]] |}.

(** A start no release can hold at nanosecond resolution. *)
Definition beyond_range : VariablesWithTime :=
  {| Time := 4611686018427387904; TimeEnd := 4611686018427391504; Interval := 3600;
     variables := variables three_hours |}.

(** An end that is the start. *)
Definition same_instant : VariablesWithTime :=
  {| Time := 3600; TimeEnd := 3600; Interval := 3600;
     variables := variables three_hours |}.

(** A release with the range of 2.x that drops equal end points. *)
Definition dropping_release : pd.release :=
  {| pd.keeps_equal_endpoints := false;
     pd.min_value := pd.min_value pd.pandas_2;
     pd.max_value := pd.max_value pd.pandas_2 |}.

(** A client that answers every request with the same responses, and one
    that fails every request. *)
Definition answering (responses : list (@WeatherApiResponse Z))
    : string -> @Params Z -> @M Z (list (@WeatherApiResponse Z)) :=
  fun _ _ => ret responses.

Definition failing (e : exception)
    : string -> @Params Z -> @M Z (list (@WeatherApiResponse Z)) :=
  fun _ _ => raise e.

Section Properties.

Context {float64 float32 : Type}.
Variable pandas : pd.release.
Local Abbreviation store := (gmap loc (@dict float32)).
Implicit Types (h : @VariablesWithTime float32) (v : @VariableWithValues float32).
Implicit Types (d : @dict float32) (x : @object float32).

(** ** Facts about the range generation *)

Lemma cdiv_unique (a s c : Z) :
  0 < s -> (c - 1) * s < a <= c * s -> pd.cdiv a s = c.
Proof.
  intros Hs Ha. unfold pd.cdiv.
  assert (H : (- a) / s = - c).
  { symmetry. apply (Z.div_unique_pos (- a) s (- c) (c * s - a)); lia. }
  lia.
Qed.

Lemma cdiv_scale (a s : Z) :
  pd.cdiv (a * pd.nanos_per_second) (s * pd.nanos_per_second) = pd.cdiv a s.
Proof.
  unfold pd.cdiv. rewrite <- Z.mul_opp_l.
  destruct (Z.eq_dec s 0) as [-> | Hs].
  - rewrite Z.mul_0_l, !Z.div_0_r. reflexivity.
  - rewrite Z.div_mul_cancel_r;
      [reflexivity | assumption | unfold pd.nanos_per_second; lia].
Qed.

Lemma cdiv_pos (a s : Z) : 0 < s -> 0 < a -> 0 < pd.cdiv a s.
Proof.
  intros Hs Ha. unfold pd.cdiv.
  assert ((- a) / s < 0) by (apply Z.div_lt_upper_bound; lia). lia.
Qed.

Lemma cdiv_floor (a s : Z) :
  0 < s ->
  pd.cdiv a s = if a mod s =? 0 then a / s else a / s + 1.
Proof.
  intros Hs.
  pose proof (Z.div_mod a s ltac:(lia)) as Hdm.
  pose proof (Z.mod_pos_bound a s Hs) as Hb.
  destruct (Z.eqb_spec (a mod s) 0) as [H0 | H0];
    apply cdiv_unique; nia.
Qed.

(** With a stride that goes the wrong way, [np.arange] has nothing to
    produce. *)
Lemma cdiv_wrong_way (a s : Z) : s < 0 -> 0 < a -> pd.cdiv a s <= 0.
Proof.
  intros Hs Ha. unfold pd.cdiv.
  assert (0 <= (- a) / s); [| lia].
  rewrite <- (Z.opp_involutive s) at 1. rewrite Z.div_opp_opp by lia.
  apply Z.div_pos; lia.
Qed.

Lemma cdiv_opp (a s : Z) : s <> 0 -> pd.cdiv a s = pd.cdiv (- a) (- s).
Proof.
  intros Hs. unfold pd.cdiv. f_equal.
  rewrite Z.div_opp_opp by assumption. reflexivity.
Qed.

Lemma cdiv_away (a s : Z) : a * s < 0 -> pd.cdiv a s <= 0.
Proof.
  intros Has.
  assert (Hs0 : s <> 0) by (intros ->; lia).
  destruct (Z_lt_le_dec s 0) as [Hs | Hs].
  - apply cdiv_wrong_way; nia.
  - rewrite cdiv_opp by assumption. apply cdiv_wrong_way; nia.
Qed.

Lemma cdiv_floor_nonzero (a s : Z) :
  s <> 0 ->
  pd.cdiv a s = if a mod s =? 0 then a / s else a / s + 1.
Proof.
  intros Hs. destruct (Z_lt_le_dec 0 s) as [Hpos | Hneg];
    [apply cdiv_floor; assumption |].
  assert (Hs' : s < 0) by lia.
  pose proof (Z.div_mod a s Hs) as Hdm.
  pose proof (Z.mod_neg_bound a s Hs') as Hb.
  rewrite cdiv_opp by assumption.
  destruct (Z.eqb_spec (a mod s) 0) as [H0 | H0];
    apply cdiv_unique; nia.
Qed.

Lemma cdiv_lt (a s k : Z) : 0 < s -> k < pd.cdiv a s -> k * s < a.
Proof.
  intros Hs. unfold pd.cdiv. intros Hk.
  pose proof (Z.div_mod (- a) s ltac:(lia)).
  pose proof (Z.mod_pos_bound (- a) s Hs). nia.
Qed.

Lemma seqZ_snoc (q : Z) : 0 <= q -> seqZ 0 (q + 1) = (seqZ 0 q ++ [q])%list.
Proof. intros Hq. rewrite seqZ_app by lia. reflexivity. Qed.

Lemma drop_last_snoc (l : list Z) (x : Z) : pd.drop_last (l ++ [x])%list = l.
Proof.
  unfold pd.drop_last. rewrite length_app. simpl.
  replace (length l + 1 - 1)%nat with (length l) by lia.
  apply take_app_length.
Qed.

(** The values [generate_regular_range] produces for a positive stride:
    the multiples up to and including the last one that is not past the
    end. *)
Lemma generate_regular_range_forward (b iend s : Z) :
  0 < s ->
  pd.generate_regular_range b iend s
  = Ok ((fun k => b + k * s) <$> seqZ 0 ((iend - b) / s + 1)).
Proof.
  intros Hs. unfold pd.generate_regular_range, pd.arange.
  destruct (Z.eqb_spec s 0) as [? | _]; [lia |].
  do 3 f_equal. apply cdiv_unique; [assumption |].
  pose proof (Z.div_mod s 2 ltac:(lia)).
  pose proof (Z.mod_pos_bound s 2 ltac:(lia)). nia.
Qed.

(** The strides the two functions can produce: a whole number of seconds,
    in nanoseconds. *)
Lemma generate_regular_range_steps (b iend s : Z) :
  0 < s \/ s <= -3 ->
  pd.generate_regular_range b iend s
  = Ok ((fun k => b + k * s) <$> seqZ 0 ((iend - b) / s + 1)).
Proof.
  intros [Hs | Hs]; [apply generate_regular_range_forward; assumption |].
  unfold pd.generate_regular_range, pd.arange.
  destruct (Z.eqb_spec s 0) as [? | _]; [lia |].
  do 3 f_equal. rewrite cdiv_opp by lia.
  apply cdiv_unique; [lia |].
  pose proof (Z.div_mod s 2 ltac:(lia)).
  pose proof (Z.mod_pos_bound s 2 ltac:(lia)). nia.
Qed.

Lemma trim_nil (r : pd.release) (b iend : Z) (incl : pd.inclusive) :
  pd.trim_endpoints r b iend incl [] = [].
Proof.
  unfold pd.trim_endpoints.
  destruct incl; simpl;
    destruct (pd.keeps_equal_endpoints r && (b =? iend)); reflexivity.
Qed.

(** What is left of the generated values when the range is closed on the
    left only: the end, when it was reached, is taken off; a range whose
    end is its start is left with that instant or with nothing, by the
    release. *)
Lemma trim_left_steps (r : pd.release) (b iend s : Z) :
  s <> 0 ->
  pd.trim_endpoints r b iend pd.closed_left
    ((fun k => b + k * s) <$> seqZ 0 ((iend - b) / s + 1))
  = (fun k => b + k * s)
      <$> seqZ 0 (if b =? iend
                  then (if pd.keeps_equal_endpoints r then 1 else 0)
                  else pd.cdiv (iend - b) s).
Proof.
  intros Hs.
  pose proof (Z.div_mod (iend - b) s Hs) as Hdm.
  pose proof (cdiv_floor_nonzero (iend - b) s Hs) as Hfloor.
  assert (Hhead : forall (l : list Z),
    match head l with Some _ => l | None => l end = l)
    by (intros [| ? ?]; reflexivity).
  destruct (Z.eqb_spec b iend) as [-> | Hne].
  - rewrite Z.sub_diag, Z.div_0_l by assumption. simpl.
    unfold pd.trim_endpoints; simpl. rewrite Z.eqb_refl.
    destruct (pd.keeps_equal_endpoints r); simpl; [reflexivity |].
    replace (iend + (Z.of_nat 0 + 0) * s =? iend) with true
      by (symmetry; apply Z.eqb_eq; lia).
    reflexivity.
  - destruct (Z_lt_le_dec ((iend - b) / s) 0) as [Hq | Hq].
    + rewrite !seqZ_nil; [apply trim_nil | | lia].
      rewrite Hfloor. destruct (_ =? 0); lia.
    + rewrite seqZ_snoc, fmap_snoc by assumption.
      unfold pd.trim_endpoints; simpl.
      destruct (Z.eqb_spec b iend) as [? | _]; [lia |].
      rewrite andb_false_r.
      rewrite Hhead, last_snoc, Hfloor.
      destruct (Z.eqb_spec (b + (iend - b) / s * s) iend) as [Heq | Hneq];
        destruct (Z.eqb_spec ((iend - b) mod s) 0) as [H0 | H0]; try lia.
      * apply drop_last_snoc.
      * rewrite seqZ_snoc, fmap_snoc by assumption. reflexivity.
Qed.

(** ** The ["date"] entry *)

Lemma to_datetime_representable (seconds : Z) :
  pd.representable pandas seconds ->
  pd.to_datetime pandas seconds true = Ok (pd.utc_instant seconds).
Proof.
  intros [Hmin Hmax]. unfold pd.to_datetime.
  apply Z.leb_le in Hmin. apply Z.leb_le in Hmax.
  rewrite Hmin, Hmax. reflexivity.
Qed.

Lemma in_range_end h : in_range pandas h -> pd.representable pandas (TimeEnd h).
Proof.
  unfold in_range, pd.representable, pd.nanos_per_second.
  intros (_ & Hlo & Hhi). lia.
Qed.

(** The index for any interval but zero: the instants
    [Time + k * Interval], as many as lie between the start (included) and
    the end (excluded) in the direction of the interval. *)
Lemma hourly_date_range_steps h :
  in_range pandas h ->
  Interval h <> 0 ->
  exists index,
    hourly_date_range pandas h = Ok index
    /\ pd.index_tz index = Some pd.UTC
    /\ pd.to_list index
       = spec_axis (Time h) (Interval h)
           (if Time h =? TimeEnd h
            then (if pd.keeps_equal_endpoints pandas then 1 else 0)
            else pd.cdiv (TimeEnd h - Time h) (Interval h)).
Proof.
  intros Hrange Hi. unfold hourly_date_range.
  rewrite (to_datetime_representable (Time h)) by apply Hrange.
  rewrite (to_datetime_representable (TimeEnd h)) by (apply in_range_end; exact Hrange).
  unfold pd.date_range, pd.utc_instant, pd.Timedelta; simpl.
  rewrite generate_regular_range_steps by (unfold pd.nanos_per_second; lia).
  rewrite trim_left_steps by (unfold pd.nanos_per_second; lia).
  eexists; split; [reflexivity |]. split; [reflexivity |].
  unfold pd.to_list, spec_axis, pd.utc_instant; simpl.
  rewrite <- Z.mul_sub_distr_r, cdiv_scale, <- list_fmap_compose.
  replace (Time h * pd.nanos_per_second =? TimeEnd h * pd.nanos_per_second)
    with (Time h =? TimeEnd h)
    by (unfold pd.nanos_per_second;
        destruct (Z.eqb_spec (Time h) (TimeEnd h));
        destruct (Z.eqb_spec (Time h * 1000000000) (TimeEnd h * 1000000000));
        (reflexivity || lia)).
  apply list_fmap_ext. intros _ k _. simpl. f_equal. lia.
Qed.

(** Only a zero interval stops the range generation. *)
Lemma hourly_date_range_zero h :
  in_range pandas h ->
  Interval h = 0 ->
  hourly_date_range pandas h = Raise ZeroDivisionError.
Proof.
  intros Hrange Hi. unfold hourly_date_range.
  rewrite (to_datetime_representable (Time h)) by apply Hrange.
  rewrite (to_datetime_representable (TimeEnd h)) by (apply in_range_end; exact Hrange).
  rewrite Hi. reflexivity.
Qed.

Lemma spec_axis_nil (start_time interval n : Z) :
  n <= 0 -> spec_axis start_time interval n = [].
Proof. intros Hn. unfold spec_axis. rewrite seqZ_nil by assumption. reflexivity. Qed.

Lemma spec_axis_lookup (start_time interval n : Z) (k : nat) (t : pd.Timestamp) :
  spec_axis start_time interval n !! k = Some t
  <-> t = pd.utc_instant (start_time + Z.of_nat k * interval) /\ Z.of_nat k < n.
Proof.
  unfold spec_axis. rewrite list_lookup_fmap. split.
  - destruct (seqZ 0 n !! k) as [j |] eqn:Hj; [| discriminate].
    apply lookup_seqZ in Hj as [-> Hlt]. simpl. intros [= <-]. split; [reflexivity | lia].
  - intros [-> Hlt]. rewrite lookup_seqZ_lt by assumption. reflexivity.
Qed.

Lemma spec_axis_length (start_time interval n : Z) :
  length (spec_axis start_time interval n) = Z.to_nat n.
Proof. unfold spec_axis. rewrite length_fmap. apply length_seqZ. Qed.

Lemma to_list_length (index : pd.DatetimeIndex) :
  length (pd.to_list index) = length (pd.i8values index).
Proof. unfold pd.to_list. apply length_fmap. Qed.

Lemma getitem_to_list (index : pd.DatetimeIndex) (k : nat) :
  pd.getitem index k = pd.to_list index !! k.
Proof. unfold pd.getitem, pd.to_list. rewrite list_lookup_fmap. reflexivity. Qed.

(** ** Running the two functions *)

Lemma hourly_data_run (ep : endpoint) h (s : store) (index : pd.DatetimeIndex) :
  (length (requested ep) <= length (variables h))%nat ->
  hourly_date_range pandas h = Ok index ->
  hourly_data pandas ep h s
  = (Ok (fresh (dom s)),
     <[fresh (dom s) := ("date", Index index) :: columns ep h]> s).
Proof.
  intros Hlen Hdate. destruct h as [t0 t1 dt vs]. simpl in *.
  destruct ep; simpl in Hlen;
    repeat (destruct vs as [| ? vs]; [simpl in Hlen; lia |]);
    unfold hourly_data, air_pollution_hourly_data, weather_hourly_data,
      bind, lift, Variables, new_dict, setitem, ret; simpl;
    rewrite Hdate; rewrite !alter_insert_eq; reflexivity.
Qed.

Lemma hourly_data_short (ep : endpoint) h (s : store) :
  (length (variables h) < length (requested ep))%nat ->
  hourly_data pandas ep h s = (Raise TypeError, s).
Proof.
  intros Hlen. destruct h as [t0 t1 dt vs]. simpl in *.
  destruct ep; simpl in Hlen;
    repeat (destruct vs as [| ? vs]; [reflexivity |]); simpl in Hlen; lia.
Qed.

Lemma hourly_data_raise (ep : endpoint) h (s : store) (e : exception) :
  (length (requested ep) <= length (variables h))%nat ->
  hourly_date_range pandas h = Raise e ->
  hourly_data pandas ep h s = (Raise e, s).
Proof.
  intros Hlen Hdate. destruct h as [t0 t1 dt vs]. simpl in *.
  destruct ep; simpl in Hlen;
    repeat (destruct vs as [| ? vs]; [simpl in Hlen; lia |]);
    unfold hourly_data, air_pollution_hourly_data, weather_hourly_data,
      bind, lift, Variables; simpl;
    rewrite Hdate; reflexivity.
Qed.

Lemma outcome_run (ep : endpoint) h (s : store) (index : pd.DatetimeIndex) :
  (length (requested ep) <= length (variables h))%nat ->
  hourly_date_range pandas h = Ok index ->
  outcome (hourly_data pandas ep h s)
  = Ok (Some (("date", Index index) :: columns ep h)).
Proof.
  intros Hlen Hdate. rewrite (hourly_data_run ep h s index Hlen Hdate).
  simpl. rewrite lookup_insert_eq. reflexivity.
Qed.

(** A response in range with an interval other than zero and a variable
    for every requested name always gets its dictionary. *)
Lemma outcome_steps (ep : endpoint) h (s : store) :
  in_range pandas h ->
  Interval h <> 0 ->
  (length (requested ep) <= length (variables h))%nat ->
  exists index,
    hourly_date_range pandas h = Ok index
    /\ outcome (hourly_data pandas ep h s)
       = Ok (Some (("date", Index index) :: columns ep h))
    /\ pd.index_tz index = Some pd.UTC
    /\ pd.to_list index
       = spec_axis (Time h) (Interval h)
           (if Time h =? TimeEnd h
            then (if pd.keeps_equal_endpoints pandas then 1 else 0)
            else pd.cdiv (TimeEnd h - Time h) (Interval h)).
Proof.
  intros Hrange Hi Hlen.
  destruct (hourly_date_range_steps h Hrange Hi) as (index & Hdate & Htz & Haxis).
  exists index. split; [exact Hdate |].
  split; [apply outcome_run; assumption |]. split; assumption.
Qed.

(** ** Facts about the dictionary *)

Lemma dict_get_zip (ks : list string) (vs : list (@object float32)) (i : nat)
    (k : string) (y : @object float32) :
  NoDup ks -> ks !! i = Some k -> vs !! i = Some y ->
  dict_get (zip ks vs) k = Some y.
Proof.
  intros Hnd. revert vs i.
  induction Hnd as [| k0 ks Hnotin Hnd IH]; intros vs i Hk Hv; [discriminate |].
  destruct vs as [| v0 vs]; [destruct i; discriminate |].
  destruct i as [| i]; simpl in *.
  - injection Hk as ->. injection Hv as ->. rewrite String.eqb_refl. reflexivity.
  - destruct (String.eqb_spec k0 k) as [-> | _].
    + exfalso. apply Hnotin. eapply list_elem_of_lookup_2; eassumption.
    + eapply IH; eassumption.
Qed.

Lemma requested_NoDup (ep : endpoint) : NoDup ("date" :: requested ep).
Proof. destruct ep; apply (bool_decide_unpack _); vm_compute; exact I. Qed.

Lemma dict_get_column (ep : endpoint) h x (i : nat) (name : string) v :
  requested ep !! i = Some name -> variables h !! i = Some v ->
  dict_get (("date", x) :: columns ep h) name = Some (ValuesAsNumpy v).
Proof.
  intros Hname Hv. pose proof (requested_NoDup ep) as Hnd.
  apply (dict_get_zip ("date" :: requested ep)
           (x :: (ValuesAsNumpy <$> variables h)) (S i));
    [assumption | assumption |].
  simpl. rewrite list_lookup_fmap, Hv. reflexivity.
Qed.

Lemma dict_get_array (ep : endpoint) h x (i : nat) (name : string) v
    (a : @ndarray float32) :
  requested ep !! i = Some name -> variables h !! i = Some v ->
  values v = Some a ->
  dict_get (("date", x) :: columns ep h) name = Some (Array a).
Proof.
  intros Hname Hv Ha. rewrite (dict_get_column ep h x i name v Hname Hv).
  unfold ValuesAsNumpy. rewrite Ha. reflexivity.
Qed.

Lemma dict_get_date x (l : @dict float32) :
  dict_get (("date", x) :: l) "date" = Some x.
Proof. reflexivity. Qed.

Lemma keys_columns (ep : endpoint) h x :
  (length (requested ep) <= length (variables h))%nat ->
  keys (("date", x) :: columns ep h) = "date" :: requested ep.
Proof.
  intros Hlen. unfold keys, columns. simpl. f_equal.
  apply fst_zip. rewrite length_fmap. assumption.
Qed.


Lemma requested_variable (ep : endpoint) h (i : nat) (name : string) :
  (length (requested ep) <= length (variables h))%nat ->
  requested ep !! i = Some name -> is_Some (variables h !! i).
Proof.
  intros Hlen Hname. apply lookup_lt_is_Some.
  apply lookup_lt_Some in Hname. lia.
Qed.

(** The functions as they are called: once the client has answered, the
    first response is turned into the dictionary. *)
Lemma get_air_pollution_history_fetched
    (weather_api : string -> @Params float64 -> M (list WeatherApiResponse))
    (lat lon : float64) (start end_ : string) (s s' : store)
    (response : WeatherApiResponse) (rest : list WeatherApiResponse) :
  weather_api air_quality_url (air_quality_params lat lon start end_) s
  = (Ok (response :: rest), s') ->
  get_air_pollution_history pandas weather_api lat lon start end_ s
  = hourly_data pandas air_quality (Hourly response) s'.
Proof.
  intros Hfetch. unfold get_air_pollution_history, bind. rewrite Hfetch. reflexivity.
Qed.

Lemma get_weather_history_fetched
    (weather_api : string -> @Params float64 -> M (list WeatherApiResponse))
    (lat lon : float64) (start end_ : string) (s s' : store)
    (response : WeatherApiResponse) (rest : list WeatherApiResponse) :
  weather_api archive_url (archive_params lat lon start end_) s
  = (Ok (response :: rest), s') ->
  get_weather_history pandas weather_api lat lon start end_ s
  = hourly_data pandas archive (Hourly response) s'.
Proof.
  intros Hfetch. unfold get_weather_history, bind. rewrite Hfetch. reflexivity.
Qed.

Lemma get_history_fetched
    (weather_api : string -> @Params float64 -> M (list WeatherApiResponse))
    (ep : endpoint) (lat lon : float64) (start end_ : string) (s s' : store)
    (response : WeatherApiResponse) (rest : list WeatherApiResponse) :
  weather_api (url ep) (params ep lat lon start end_) s
  = (Ok (response :: rest), s') ->
  get_history pandas weather_api ep lat lon start end_ s
  = hourly_data pandas ep (Hourly response) s'.
Proof.
  destruct ep; simpl.
  - apply get_air_pollution_history_fetched.
  - apply get_weather_history_fetched.
Qed.

(** When the end differs from the start the releases agree on the axis. *)
Lemma outcome_apart (ep : endpoint) h (s : store) :
  in_range pandas h ->
  Interval h <> 0 ->
  Time h <> TimeEnd h ->
  (length (requested ep) <= length (variables h))%nat ->
  exists index,
    hourly_date_range pandas h = Ok index
    /\ outcome (hourly_data pandas ep h s)
       = Ok (Some (("date", Index index) :: columns ep h))
    /\ pd.index_tz index = Some pd.UTC
    /\ pd.to_list index
       = spec_axis (Time h) (Interval h)
           (pd.cdiv (TimeEnd h - Time h) (Interval h)).
Proof.
  intros Hrange Hi Hne Hlen.
  destruct (outcome_steps ep h s Hrange Hi Hlen) as (index & Hdate & Hout & Htz & Haxis).
  destruct (Z.eqb_spec (Time h) (TimeEnd h)) as [? | _]; [contradiction |].
  exists index. repeat split; assumption.
Qed.

(** ** The claims *)

(** C1.  For a valid payload (instants in range, positive interval, end
    after start, one variable per requested name, all arrays of the length
    [n = floor((TimeEnd - Time) / Interval)]) the call returns a dictionary
    in which, for every variable [i] and every position [k < n], the array
    under the [i]-th requested name holds at [k] the very value
    [variables[i].values[k]], and the time axis holds at [k] the instant
    [Time + k * Interval]. *)
Theorem C1_values_round_trip (ep : endpoint) h (n : nat) (s : store) :
  in_range pandas h ->
  0 < Interval h ->
  Time h < TimeEnd h ->
  length (variables h) = length (requested ep) ->
  (forall v, v ∈ variables h -> exists a, values v = Some a /\ length a = n) ->
  Z.of_nat n = (TimeEnd h - Time h) / Interval h ->
  exists d,
    outcome (hourly_data pandas ep h s) = Ok (Some d)
    /\ forall i v, variables h !! i = Some v ->
         exists name,
           requested ep !! i = Some name
           /\ forall k, (k < n)%nat ->
                (exists a y, values v = Some a /\ a !! k = Some y
                             /\ array_item d name k = Some y)
                /\ index_item d "date" k
                   = Some (pd.utc_instant (Time h + Z.of_nat k * Interval h)).
Proof.
  intros Hrange Hi Hlt Hlen Hall Hn.
  destruct (outcome_apart ep h s Hrange ltac:(lia) ltac:(lia) ltac:(lia))
    as (index & _ & Hout & _ & Haxis).
  eexists; split; [exact Hout |].
  intros i v Hv.
  assert (Hname : is_Some (requested ep !! i)).
  { apply lookup_lt_is_Some. rewrite <- Hlen. eapply lookup_lt_Some; eassumption. }
  destruct Hname as [name Hname]. exists name; split; [assumption |].
  intros k Hk. split.
  - destruct (Hall v) as (a & Ha & Hlena);
      [eapply list_elem_of_lookup_2; eassumption |].
    assert (Hy : is_Some (a !! k)) by (apply lookup_lt_is_Some; lia).
    destruct Hy as [y Hy]. exists a, y. split; [assumption |]. split; [assumption |].
    unfold array_item. rewrite (dict_get_array ep h _ i name v a Hname Hv Ha).
    assumption.
  - unfold index_item. simpl. rewrite getitem_to_list, Haxis.
    apply spec_axis_lookup. split; [reflexivity |].
    rewrite (cdiv_floor _ _ Hi). destruct (_ =? 0); lia.
Qed.

(** C2 (amended).  For a valid payload the time axis is exactly the sequence
    [Time + k * Interval] for [k = 0 .. m-1], where [m] is the number of
    such instants before [TimeEnd], the ceiling of
    [(TimeEnd - Time) / Interval]: it is the floor when the interval
    divides the span and one more otherwise.  The axis starts at [Time],
    increases strictly by [Interval] from each entry to the next, and every
    entry is before [TimeEnd]. *)
Theorem C2_axis_half_open (ep : endpoint) h (s : store) :
  in_range pandas h ->
  0 < Interval h ->
  Time h < TimeEnd h ->
  (length (requested ep) <= length (variables h))%nat ->
  exists d index,
    outcome (hourly_data pandas ep h s) = Ok (Some d)
    /\ dict_get d "date" = Some (Index index)
    /\ pd.to_list index
       = spec_axis (Time h) (Interval h) (pd.cdiv (TimeEnd h - Time h) (Interval h))
    /\ 0 < pd.cdiv (TimeEnd h - Time h) (Interval h)
    /\ pd.cdiv (TimeEnd h - Time h) (Interval h)
       = (if (TimeEnd h - Time h) mod Interval h =? 0
          then (TimeEnd h - Time h) / Interval h
          else (TimeEnd h - Time h) / Interval h + 1)
    /\ head (pd.to_list index) = Some (pd.utc_instant (Time h))
    /\ (forall k t t',
          pd.to_list index !! k = Some t -> pd.to_list index !! S k = Some t' ->
          pd.value t' = pd.value t + pd.Timedelta (Interval h)
          /\ pd.value t < pd.value t')
    /\ (forall t, t ∈ pd.to_list index ->
          pd.value t < pd.value (pd.utc_instant (TimeEnd h))).
Proof.
  intros Hrange Hi Hlt Hlen.
  destruct (outcome_apart ep h s Hrange ltac:(lia) ltac:(lia) Hlen)
    as (index & _ & Hout & _ & Haxis).
  pose proof (cdiv_pos (TimeEnd h - Time h) (Interval h) Hi ltac:(lia)) as Hm.
  eexists; exists index.
  split; [exact Hout |].
  split; [apply dict_get_date |].
  split; [exact Haxis |].
  split; [exact Hm |].
  split; [apply cdiv_floor; assumption |].
  rewrite Haxis. split; [| split].
  - rewrite head_lookup. apply spec_axis_lookup. split; [| lia].
    f_equal. lia.
  - intros k t t' Ht Ht'.
    apply spec_axis_lookup in Ht as [-> _]. apply spec_axis_lookup in Ht' as [-> _].
    unfold pd.utc_instant, pd.Timedelta, pd.nanos_per_second; simpl. lia.
  - intros t Ht. apply list_elem_of_lookup in Ht as [k Ht].
    apply spec_axis_lookup in Ht as [-> Hk].
    apply cdiv_lt in Hk; [| assumption].
    unfold pd.utc_instant, pd.nanos_per_second; simpl. lia.
Qed.

(** C3 (amended).  For a valid payload whose arrays have the common length
    [n = floor((TimeEnd - Time) / Interval)], the time axis has
    [ceil((TimeEnd - Time) / Interval)] entries: [n], like every array,
    when the interval divides the span, and [n + 1] when it does not. *)
Theorem C3_axis_length (ep : endpoint) h (n : nat) (s : store) :
  in_range pandas h ->
  0 < Interval h ->
  Time h < TimeEnd h ->
  length (variables h) = length (requested ep) ->
  (forall v, v ∈ variables h -> exists a, values v = Some a /\ length a = n) ->
  Z.of_nat n = (TimeEnd h - Time h) / Interval h ->
  exists d m,
    outcome (hourly_data pandas ep h s) = Ok (Some d)
    /\ column_len d "date" = Some m
    /\ Z.of_nat m = pd.cdiv (TimeEnd h - Time h) (Interval h)
    /\ ((TimeEnd h - Time h) mod Interval h = 0 ->
        m = n /\ forall name, name ∈ requested ep -> column_len d name = Some n)
    /\ ((TimeEnd h - Time h) mod Interval h <> 0 -> m = S n).
Proof.
  intros Hrange Hi Hlt Hlen Hall Hn.
  destruct (outcome_apart ep h s Hrange ltac:(lia) ltac:(lia) ltac:(lia))
    as (index & _ & Hout & _ & Haxis).
  pose proof (cdiv_pos (TimeEnd h - Time h) (Interval h) Hi ltac:(lia)) as Hm.
  pose proof (cdiv_floor (TimeEnd h - Time h) (Interval h) Hi) as Hfloor.
  assert (Hcount : Z.of_nat (length (pd.i8values index))
                   = pd.cdiv (TimeEnd h - Time h) (Interval h)).
  { rewrite <- to_list_length, Haxis, spec_axis_length. lia. }
  eexists; exists (length (pd.i8values index)).
  split; [exact Hout |].
  split; [reflexivity |].
  split; [exact Hcount |].
  split.
  - intros H0. rewrite H0 in Hfloor. simpl in Hfloor. split; [lia |].
    intros name Hname. apply list_elem_of_lookup in Hname as [i Hname].
    assert (Hv : is_Some (variables h !! i)).
    { apply lookup_lt_is_Some. rewrite Hlen. eapply lookup_lt_Some; eassumption. }
    destruct Hv as [v Hv].
    destruct (Hall v) as (a & Ha & Hlena);
      [eapply list_elem_of_lookup_2; eassumption |].
    unfold column_len.
    rewrite (dict_get_array ep h _ i name v a Hname Hv Ha).
    f_equal. exact Hlena.
  - intros H0. destruct (Z.eqb_spec ((TimeEnd h - Time h) mod Interval h) 0); lia.
Qed.

(** C4 (amended).  The interval is not validated.  For a response in range:
    with an interval of zero the call ends in the [ZeroDivisionError] of
    the range generation and leaves the store as it was; with a negative
    interval it returns the dictionary as usual, every requested name bound
    to what its variable gave, and when the end is after the start the time
    axis is empty. *)
Theorem C4_interval_not_positive (ep : endpoint) h (s : store) :
  in_range pandas h ->
  Interval h <= 0 ->
  (length (requested ep) <= length (variables h))%nat ->
  (Interval h = 0 -> hourly_data pandas ep h s = (Raise ZeroDivisionError, s))
  /\ (Interval h < 0 ->
      exists d index,
        outcome (hourly_data pandas ep h s) = Ok (Some d)
        /\ dict_get d "date" = Some (Index index)
        /\ (Time h < TimeEnd h -> pd.to_list index = [])
        /\ forall i name v,
             requested ep !! i = Some name -> variables h !! i = Some v ->
             dict_get d name = Some (ValuesAsNumpy v)).
Proof.
  intros Hrange Hle Hlen. split.
  - intros H0. apply hourly_data_raise; [assumption |].
    apply hourly_date_range_zero; assumption.
  - intros Hneg.
    destruct (outcome_steps ep h s Hrange ltac:(lia) Hlen)
      as (index & _ & Hout & _ & Haxis).
    eexists; exists index. split; [exact Hout |].
    split; [apply dict_get_date |]. split.
    + intros Hlt. rewrite Haxis.
      destruct (Z.eqb_spec (Time h) (TimeEnd h)) as [? | _]; [lia |].
      apply spec_axis_nil. apply cdiv_wrong_way; lia.
    + intros i name v Hname Hv. eapply dict_get_column; eassumption.
Qed.

(** C5 (amended).  The lengths of the arrays are not compared.  When two
    of the requested variables of a response in range have arrays of
    different lengths the call still returns the dictionary, and the two
    names are bound to arrays of those two different lengths. *)
Theorem C5_lengths_not_compared (ep : endpoint) h (s : store)
    (i j : nat) (ni nj : string) (vi vj : VariableWithValues)
    (ai aj : @ndarray float32) :
  in_range pandas h ->
  Interval h <> 0 ->
  (length (requested ep) <= length (variables h))%nat ->
  requested ep !! i = Some ni -> variables h !! i = Some vi ->
  requested ep !! j = Some nj -> variables h !! j = Some vj ->
  values vi = Some ai -> values vj = Some aj ->
  length ai <> length aj ->
  exists d,
    outcome (hourly_data pandas ep h s) = Ok (Some d)
    /\ column_len d ni = Some (length ai)
    /\ column_len d nj = Some (length aj)
    /\ column_len d ni <> column_len d nj.
Proof.
  intros Hrange Hi Hlen Hni Hvi Hnj Hvj Hai Haj Hne.
  destruct (outcome_steps ep h s Hrange Hi Hlen) as (index & _ & Hout & _).
  eexists. split; [exact Hout |].
  unfold column_len.
  rewrite (dict_get_array ep h _ i ni vi ai Hni Hvi Hai).
  rewrite (dict_get_array ep h _ j nj vj aj Hnj Hvj Haj).
  repeat split; congruence.
Qed.

(** C6 (amended).  The order of the end points is not validated.  For a
    response in range with a positive interval and an end that is not after
    the start the call returns the dictionary as usual, every requested
    name bound to what its variable gave; when the end is before the start
    the time axis is empty. *)
Theorem C6_range_not_validated (ep : endpoint) h (s : store) :
  in_range pandas h ->
  0 < Interval h ->
  TimeEnd h <= Time h ->
  (length (requested ep) <= length (variables h))%nat ->
  exists d index,
    outcome (hourly_data pandas ep h s) = Ok (Some d)
    /\ dict_get d "date" = Some (Index index)
    /\ (TimeEnd h < Time h -> pd.to_list index = [])
    /\ forall i name v,
         requested ep !! i = Some name -> variables h !! i = Some v ->
         dict_get d name = Some (ValuesAsNumpy v).
Proof.
  intros Hrange Hi Hle Hlen.
  destruct (outcome_steps ep h s Hrange ltac:(lia) Hlen)
    as (index & _ & Hout & _ & Haxis).
  eexists; exists index. split; [exact Hout |].
  split; [apply dict_get_date |]. split.
  - intros Hlt. rewrite Haxis.
    destruct (Z.eqb_spec (Time h) (TimeEnd h)) as [? | _]; [lia |].
    apply spec_axis_nil. apply cdiv_away. nia.
  - intros i name v Hname Hv. eapply dict_get_column; eassumption.
Qed.

(** C7.  For a response in range with a non-zero interval and a variable
    for every requested name, the call returns a dictionary in which the
    [i]-th requested name is bound to what the [i]-th variable of the
    response gave; the requested names are the seven air-quality names and
    the four weather names, in the order of the request. *)
Theorem C7_request_order (ep : endpoint) h (s : store) :
  in_range pandas h ->
  Interval h <> 0 ->
  (length (requested ep) <= length (variables h))%nat ->
  requested ep
  = match ep with
    | air_quality =>
        ["pm10"; "pm2_5"; "sulphur_dioxide"; "nitrogen_dioxide"; "ozone";
         "carbon_monoxide"; "european_aqi"]
    | archive =>
        ["temperature_2m"; "relative_humidity_2m"; "rain"; "dew_point_2m"]
    end
  /\ exists d,
       outcome (hourly_data pandas ep h s) = Ok (Some d)
       /\ forall i name,
            requested ep !! i = Some name ->
            exists v, variables h !! i = Some v
                      /\ dict_get d name = Some (ValuesAsNumpy v).
Proof.
  intros Hrange Hi Hlen. split; [destruct ep; reflexivity |].
  destruct (outcome_steps ep h s Hrange Hi Hlen) as (index & _ & Hout & _).
  eexists. split; [exact Hout |].
  intros i name Hname.
  destruct (requested_variable ep h i name Hlen Hname) as [v Hv].
  exists v. split; [assumption |]. eapply dict_get_column; eassumption.
Qed.

(** C8.  The outcome of a call (the contents of the returned dictionary, or
    the exception) is the same from any two stores; a call changes no
    object that exists already: on success the returned reference is a new
    one and every other reference reads as before, and on an exception the
    store is as it was. *)
Theorem C8_deterministic (ep : endpoint) h (s1 s2 : store) :
  outcome (hourly_data pandas ep h s1) = outcome (hourly_data pandas ep h s2)
  /\ (forall l d, s1 !! l = Some d -> (hourly_data pandas ep h s1).2 !! l = Some d)
  /\ (forall l s', hourly_data pandas ep h s1 = (Ok l, s') ->
        s1 !! l = None /\ forall l', l' <> l -> s' !! l' = s1 !! l')
  /\ (forall e s', hourly_data pandas ep h s1 = (Raise e, s') -> s' = s1).
Proof.
  assert (Hfresh : forall s : store, s !! fresh (dom s) = None).
  { intros s. apply not_elem_of_dom. apply is_fresh. }
  destruct (decide (length (requested ep) <= length (variables h))%nat) as [Hlen | Hlen].
  - destruct (hourly_date_range pandas h) as [index | e] eqn:Hdate.
    + rewrite !(outcome_run ep h _ index Hlen Hdate).
      rewrite (hourly_data_run ep h s1 index Hlen Hdate).
      split; [reflexivity |]. split; [| split].
      * intros l d Hl. simpl. rewrite lookup_insert_ne; [assumption |].
        intros <-. rewrite Hfresh in Hl. discriminate.
      * intros l s' [= <- <-]. split; [apply Hfresh |].
        intros l' Hne. apply lookup_insert_ne. congruence.
      * intros e s' [=].
    + rewrite !(hourly_data_raise ep h _ e Hlen Hdate).
      split; [reflexivity |]. split; [| split].
      * intros l d Hl. exact Hl.
      * intros l s' [=].
      * intros e' s' [= _ <-]. reflexivity.
  - rewrite !(hourly_data_short ep h) by lia.
    split; [reflexivity |]. split; [| split].
    + intros l d Hl. exact Hl.
    + intros l s' [=].
    + intros e' s' [= _ <-]. reflexivity.
Qed.

(** C9.  For a response in range with a non-zero interval and a variable
    for every requested name, the ["date"] entry of the returned dictionary
    is an index aware of UTC, and so is every timestamp on it; each is a
    whole number of seconds since the epoch, and the first, when there is
    one, is [Time] seconds since the epoch. *)
Theorem C9_axis_is_utc (ep : endpoint) h (s : store) :
  in_range pandas h ->
  Interval h <> 0 ->
  (length (requested ep) <= length (variables h))%nat ->
  exists d index,
    outcome (hourly_data pandas ep h s) = Ok (Some d)
    /\ dict_get d "date" = Some (Index index)
    /\ pd.index_tz index = Some pd.UTC
    /\ (forall t, t ∈ pd.to_list index ->
          pd.tz t = Some pd.UTC
          /\ exists seconds, pd.value t = seconds * pd.nanos_per_second)
    /\ (forall t, head (pd.to_list index) = Some t ->
          pd.value t = Time h * pd.nanos_per_second).
Proof.
  intros Hrange Hi Hlen.
  destruct (outcome_steps ep h s Hrange Hi Hlen) as (index & _ & Hout & Htz & Haxis).
  eexists; exists index. split; [exact Hout |].
  split; [apply dict_get_date |].
  split; [exact Htz |].
  rewrite Haxis. split.
  - intros t Ht. apply list_elem_of_lookup in Ht as [k Ht].
    apply spec_axis_lookup in Ht as [-> _].
    split; [reflexivity |]. eexists; reflexivity.
  - intros t Ht. rewrite head_lookup in Ht.
    apply spec_axis_lookup in Ht as [-> _].
    unfold pd.utc_instant; simpl. f_equal. lia.
Qed.

(** C10.  For a response in range with a non-zero interval and a variable
    for every requested name, the keys of the returned dictionary are
    ["date"] followed by the requested names in the order of the request,
    each key once: eight keys for the air-quality function and five for the
    weather function. *)
Theorem C10_returned_keys (ep : endpoint) h (s : store) :
  in_range pandas h ->
  Interval h <> 0 ->
  (length (requested ep) <= length (variables h))%nat ->
  exists d,
    outcome (hourly_data pandas ep h s) = Ok (Some d)
    /\ keys d = "date" :: requested ep
    /\ NoDup (keys d)
    /\ length (keys d) = match ep with air_quality => 8%nat | archive => 5%nat end.
Proof.
  intros Hrange Hi Hlen.
  destruct (outcome_steps ep h s Hrange Hi Hlen) as (index & _ & Hout & _).
  eexists. split; [exact Hout |].
  rewrite keys_columns by assumption.
  split; [reflexivity |]. split; [apply requested_NoDup |].
  destruct ep; reflexivity.
Qed.

(** ** Further properties of the two functions *)

(** X1.  For a response in range whose end differs from its start, and for
    any interval but zero, the time axis of the returned dictionary is the
    sequence [Time + k * Interval], [k = 0 .. m-1], in UTC: [m] is the
    ceiling of [(TimeEnd - Time) / Interval], none when that is not
    positive. *)
Theorem axis_is_progression (ep : endpoint) h (s : store) :
  in_range pandas h ->
  Interval h <> 0 ->
  Time h <> TimeEnd h ->
  (length (requested ep) <= length (variables h))%nat ->
  exists d index,
    outcome (hourly_data pandas ep h s) = Ok (Some d)
    /\ dict_get d "date" = Some (Index index)
    /\ pd.to_list index
       = spec_axis (Time h) (Interval h)
           (pd.cdiv (TimeEnd h - Time h) (Interval h))
    /\ forall k t, index_item d "date" k = Some t ->
         t = pd.utc_instant (Time h + Z.of_nat k * Interval h).
Proof.
  intros Hrange Hi Hne Hlen.
  destruct (outcome_apart ep h s Hrange Hi Hne Hlen)
    as (index & _ & Hout & _ & Haxis).
  eexists; exists index. split; [exact Hout |].
  split; [apply dict_get_date |]. split; [exact Haxis |].
  intros k t. unfold index_item. simpl.
  rewrite getitem_to_list, Haxis. intros Ht.
  apply spec_axis_lookup in Ht as [-> _]. reflexivity.
Qed.

(** X2.  When the end differs from the start, every timestamp of the axis
    lies between the start, which may occur, and the end, which never
    does: from [Time] up to before [TimeEnd] for a positive interval, from
    [Time] down to after [TimeEnd] for a negative one. *)
Theorem axis_excludes_end (ep : endpoint) h (s : store) :
  in_range pandas h ->
  Interval h <> 0 ->
  Time h <> TimeEnd h ->
  (length (requested ep) <= length (variables h))%nat ->
  exists d index,
    outcome (hourly_data pandas ep h s) = Ok (Some d)
    /\ dict_get d "date" = Some (Index index)
    /\ ~ (pd.utc_instant (TimeEnd h) ∈ pd.to_list index)
    /\ forall t, t ∈ pd.to_list index ->
         exists seconds,
           t = pd.utc_instant seconds
           /\ (0 < Interval h -> Time h <= seconds < TimeEnd h)
           /\ (Interval h < 0 -> TimeEnd h < seconds <= Time h).
Proof.
  intros Hrange Hi Hne Hlen.
  destruct (outcome_apart ep h s Hrange Hi Hne Hlen)
    as (index & _ & Hout & _ & Haxis).
  assert (Hin : forall t, t ∈ pd.to_list index ->
    exists seconds,
      t = pd.utc_instant seconds
      /\ (0 < Interval h -> Time h <= seconds < TimeEnd h)
      /\ (Interval h < 0 -> TimeEnd h < seconds <= Time h)).
  { intros t Ht. rewrite Haxis in Ht.
    apply list_elem_of_lookup in Ht as [k Ht].
    apply spec_axis_lookup in Ht as [-> Hk].
    eexists; split; [reflexivity |]. split.
    - intros Hpos. apply cdiv_lt in Hk; [| assumption]. nia.
    - intros Hneg. rewrite cdiv_opp in Hk by assumption.
      apply cdiv_lt in Hk; [| lia]. nia. }
  eexists; exists index. split; [exact Hout |].
  split; [apply dict_get_date |]. split; [| exact Hin].
  intros Hend. apply Hin in Hend as (seconds & Heq & Hpos & Hneg).
  assert (seconds = TimeEnd h).
  { unfold pd.utc_instant in Heq. injection Heq as Heq.
    unfold pd.nanos_per_second in Heq. lia. }
  destruct (Z_lt_le_dec 0 (Interval h)) as [Hsign | Hsign];
    [apply Hpos in Hsign | assert (Hlt : Interval h < 0) by lia; apply Hneg in Hlt];
    lia.
Qed.

(** X3.  For a response in range and any interval but zero, no timestamp
    occurs twice on the time axis: from each entry to a later one the
    instant moves strictly in the direction of the interval. *)
Theorem axis_strictly_monotone (ep : endpoint) h (s : store) :
  in_range pandas h ->
  Interval h <> 0 ->
  (length (requested ep) <= length (variables h))%nat ->
  exists d index,
    outcome (hourly_data pandas ep h s) = Ok (Some d)
    /\ dict_get d "date" = Some (Index index)
    /\ NoDup (pd.to_list index)
    /\ forall j k t t',
         (j < k)%nat ->
         pd.to_list index !! j = Some t -> pd.to_list index !! k = Some t' ->
         (0 < Interval h -> pd.value t < pd.value t')
         /\ (Interval h < 0 -> pd.value t' < pd.value t).
Proof.
  intros Hrange Hi Hlen.
  destruct (outcome_steps ep h s Hrange Hi Hlen) as (index & _ & Hout & _ & Haxis).
  assert (Hmono : forall j k t t',
    (j < k)%nat ->
    pd.to_list index !! j = Some t -> pd.to_list index !! k = Some t' ->
    (0 < Interval h -> pd.value t < pd.value t')
    /\ (Interval h < 0 -> pd.value t' < pd.value t)).
  { intros j k t t' Hjk Ht Ht'. rewrite Haxis in Ht, Ht'.
    apply spec_axis_lookup in Ht as [-> _]. apply spec_axis_lookup in Ht' as [-> _].
    unfold pd.utc_instant, pd.nanos_per_second; simpl. split; intros; nia. }
  eexists; exists index. split; [exact Hout |].
  split; [apply dict_get_date |]. split; [| exact Hmono].
  apply NoDup_alt. intros j k t Ht Ht'.
  destruct (Nat.lt_trichotomy j k) as [Hlt | [-> | Hlt]]; [| reflexivity |].
  - destruct (Hmono j k t t Hlt Ht Ht') as [Hpos Hneg].
    destruct (Z_lt_le_dec 0 (Interval h)) as [Hsign | Hsign];
      [apply Hpos in Hsign | assert (Hlt' : Interval h < 0) by lia; apply Hneg in Hlt'];
      lia.
  - destruct (Hmono k j t t Hlt Ht' Ht) as [Hpos Hneg].
    destruct (Z_lt_le_dec 0 (Interval h)) as [Hsign | Hsign];
      [apply Hpos in Hsign | assert (Hlt' : Interval h < 0) by lia; apply Hneg in Hlt'];
      lia.
Qed.

(** X4.  Two responses in range with the same start, end and interval get
    the same ["date"] entry, whichever of the two functions reads them and
    whatever their variables hold: the air-quality and the weather
    dictionary of one period share their time axis. *)
Theorem axis_shared_by_both_functions (ep ep' : endpoint) h h' (s s' : store) :
  in_range pandas h ->
  Time h = Time h' -> TimeEnd h = TimeEnd h' -> Interval h = Interval h' ->
  Interval h <> 0 ->
  (length (requested ep) <= length (variables h))%nat ->
  (length (requested ep') <= length (variables h'))%nat ->
  exists d d' index,
    outcome (hourly_data pandas ep h s) = Ok (Some d)
    /\ outcome (hourly_data pandas ep' h' s') = Ok (Some d')
    /\ dict_get d "date" = Some (Index index)
    /\ dict_get d' "date" = Some (Index index).
Proof.
  intros Hrange Ht Hte Hi Hnz Hlen Hlen'.
  destruct (outcome_steps ep h s Hrange Hnz Hlen) as (index & Hdate & Hout & _).
  assert (Hdate' : hourly_date_range pandas h' = Ok index).
  { rewrite <- Hdate. unfold hourly_date_range. rewrite Ht, Hte, Hi. reflexivity. }
  eexists; eexists; exists index. split; [exact Hout |].
  split; [apply (outcome_run ep' h' s' index Hlen' Hdate') |].
  split; apply dict_get_date.
Qed.


(** X6.  Two calls on the same response, one after the other, return two
    different dictionaries with the same contents, and the second call
    leaves the dictionary of the first as it was. *)
Theorem successive_calls_do_not_share (ep : endpoint) h (s : store) :
  in_range pandas h ->
  Interval h <> 0 ->
  (length (requested ep) <= length (variables h))%nat ->
  exists l1 s1 l2 s2 d,
    hourly_data pandas ep h s = (Ok l1, s1)
    /\ hourly_data pandas ep h s1 = (Ok l2, s2)
    /\ l1 <> l2
    /\ s1 !! l1 = Some d
    /\ s2 !! l1 = Some d
    /\ s2 !! l2 = Some d.
Proof.
  intros Hrange Hi Hlen.
  destruct (hourly_date_range_steps h Hrange Hi) as (index & Hdate & _).
  pose proof (hourly_data_run ep h s _ Hlen Hdate) as Hrun1.
  set (l1 := fresh (dom s)) in *.
  set (d := ("date", Index index) :: columns ep h) in *.
  pose proof (hourly_data_run ep h (<[l1 := d]> s) _ Hlen Hdate) as Hrun2.
  fold d in Hrun2.
  set (l2 := fresh (dom (<[l1 := d]> s))) in *.
  assert (Hne : l1 <> l2).
  { intros Heq. pose proof (is_fresh (dom (<[l1 := d]> s))) as Hfresh.
    fold l2 in Hfresh. rewrite <- Heq in Hfresh.
    apply Hfresh. rewrite dom_insert_L. set_solver. }
  exists l1, (<[l1 := d]> s), l2, (<[l2 := d]> (<[l1 := d]> s)), d.
  split; [exact Hrun1 |]. split; [exact Hrun2 |]. split; [exact Hne |].
  split; [apply lookup_insert_eq |]. split.
  - rewrite lookup_insert_ne by congruence. apply lookup_insert_eq.
  - apply lookup_insert_eq.
Qed.

(** X7.  From the request to the dictionary: when the client answers the
    request of the function, sent to the URL of the function, with at
    least one response, and the first response is in range and has a
    non-zero interval and a variable for every requested name, the
    function returns a new dictionary, added to the store the client left.
    Its keys are ["date"] and the names of the request's ["hourly"] list,
    in that order, and the [i]-th of these names is bound to what the
    [i]-th variable of the first response gave; the other responses play
    no part. *)
Theorem first_response_assembled
    (weather_api : string -> @Params float64 -> M (list WeatherApiResponse))
    (ep : endpoint) (lat lon : float64) (start end_ : string) (s s' : store)
    (response : WeatherApiResponse) (rest : list WeatherApiResponse) :
  weather_api (url ep) (params ep lat lon start end_) s
  = (Ok (response :: rest), s') ->
  in_range pandas (Hourly response) ->
  Interval (Hourly response) <> 0 ->
  (length (requested ep) <= length (variables (Hourly response)))%nat ->
  exists l d,
    get_history pandas weather_api ep lat lon start end_ s = (Ok l, <[l := d]> s')
    /\ s' !! l = None
    /\ keys d = "date" :: hourly (params ep lat lon start end_)
    /\ forall i name,
         hourly (params ep lat lon start end_) !! i = Some name ->
         exists v, variables (Hourly response) !! i = Some v
                   /\ dict_get d name = Some (ValuesAsNumpy v).
Proof.
  intros Hfetch Hrange Hi Hlen.
  rewrite (get_history_fetched weather_api ep lat lon start end_ s s' response rest Hfetch).
  destruct (hourly_date_range_steps (Hourly response) Hrange Hi) as (index & Hdate & _).
  rewrite (hourly_data_run ep (Hourly response) s' _ Hlen Hdate).
  assert (Hnames : hourly (params ep lat lon start end_) = requested ep)
    by (destruct ep; reflexivity).
  rewrite Hnames.
  eexists; eexists. split; [reflexivity |].
  split; [apply not_elem_of_dom, is_fresh |].
  split; [apply keys_columns; assumption |].
  intros i name Hname.
  destruct (requested_variable ep (Hourly response) i name Hlen Hname) as [v Hv].
  exists v. split; [assumption |]. eapply dict_get_column; eassumption.
Qed.

(** X8.  What the client does decides whether there is a dictionary at
    all: an exception of the client ends the call with that exception, an
    empty list of responses ends it with [IndexError], both with the store
    as the client left it; and a call that returns a dictionary has built
    it from the first of the responses the client gave. *)
Theorem client_failures_pass_through
    (weather_api : string -> @Params float64 -> M (list WeatherApiResponse))
    (ep : endpoint) (lat lon : float64) (start end_ : string) (s : store) :
  (forall e s',
     weather_api (url ep) (params ep lat lon start end_) s = (Raise e, s') ->
     get_history pandas weather_api ep lat lon start end_ s = (Raise e, s'))
  /\ (forall s',
        weather_api (url ep) (params ep lat lon start end_) s = (Ok [], s') ->
        get_history pandas weather_api ep lat lon start end_ s
        = (Raise IndexError, s'))
  /\ (forall l s2,
        get_history pandas weather_api ep lat lon start end_ s = (Ok l, s2) ->
        exists response rest s',
          weather_api (url ep) (params ep lat lon start end_) s
          = (Ok (response :: rest), s')
          /\ hourly_data pandas ep (Hourly response) s' = (Ok l, s2)).
Proof.
  split; [| split].
  - intros e s' Hfetch.
    destruct ep; simpl in *;
      unfold get_air_pollution_history, get_weather_history, bind;
      rewrite Hfetch; reflexivity.
  - intros s' Hfetch.
    destruct ep; simpl in *;
      unfold get_air_pollution_history, get_weather_history, bind;
      rewrite Hfetch; reflexivity.
  - intros l s2 Hrun.
    destruct (weather_api (url ep) (params ep lat lon start end_) s)
      as [[[| response rest] | e] s'] eqn:Hfetch.
    + destruct ep; simpl in *;
        unfold get_air_pollution_history, get_weather_history, bind in Hrun;
        rewrite Hfetch in Hrun; discriminate.
    + exists response, rest, s'. split; [reflexivity |].
      rewrite <- Hrun. symmetry. eapply get_history_fetched. exact Hfetch.
    + destruct ep; simpl in *;
        unfold get_air_pollution_history, get_weather_history, bind in Hrun;
        rewrite Hfetch in Hrun; discriminate.
Qed.

End Properties.

(** ** The claims on the sample responses *)

(** Runs a sample response: the range is computed, the dictionary read off. *)
Ltac run_sample :=
  etransitivity; [apply outcome_run; [simpl; lia | reflexivity] | reflexivity].

(** The instants of a sample response are in the range of the release. *)
Ltac sample_in_range :=
  unfold in_range, pd.representable, pd.nanos_per_second; simpl; lia.

Lemma sample_lengths (h : @VariablesWithTime Z) (n : nat) :
  Forall (fun v => exists a, values v = Some a /\ length a = n) (variables h) ->
  forall v, v ∈ variables h -> exists a, values v = Some a /\ length a = n.
Proof. intros Hall. apply Forall_forall. exact Hall. Qed.

Ltac sample_arrays :=
  apply sample_lengths; simpl;
  repeat (constructor; [eexists; split; reflexivity |]); constructor.

Lemma C1_witness :
  exists d,
    outcome (hourly_data pd.pandas_2 archive three_hours empty_store) = Ok (Some d)
    /\ array_item d "rain" 1 = Some 8
    /\ index_item d "date" 1 = Some (pd.utc_instant 3600).
Proof.
  destruct (C1_values_round_trip pd.pandas_2 archive three_hours 3 empty_store)
    as (d & Hout & Hcols).
  - sample_in_range.
  - simpl; lia.
  - simpl; lia.
  - reflexivity.
  - sample_arrays.
  - reflexivity.
  - exists d. split; [exact Hout |].
    destruct (Hcols 2%nat (sample_variable [7; 8; 9]) eq_refl)
      as (name & Hname & Hrow).
    injection Hname as <-.
    destruct (Hrow 1%nat ltac:(lia)) as ((a & y & Ha & Hy & Hitem) & Hdate).
    injection Ha as <-. injection Hy as <-.
    split; [exact Hitem | exact Hdate].
Defined.

Lemma C2_counterexample :
  in_range pd.pandas_2 unaligned
  /\ 0 < Interval unaligned
  /\ Time unaligned < TimeEnd unaligned
  /\ Forall (fun v => exists a, values v = Some a /\ length a = 3%nat)
            (variables unaligned)
  /\ 3 = (TimeEnd unaligned - Time unaligned) / Interval unaligned
  /\ exists index,
       outcome (hourly_data pd.pandas_2 archive unaligned empty_store)
       = Ok (Some (("date", Index index) :: columns archive unaligned))
       /\ pd.to_list index = spec_axis 0 3 4
       /\ pd.to_list index <> spec_axis 0 3 3.
Proof.
  split; [sample_in_range |].
  split; [reflexivity |]. split; [reflexivity |].
  split; [repeat (constructor; [eexists; split; reflexivity |]); constructor |].
  split; [reflexivity |].
  eexists. split; [apply outcome_run; [simpl; lia | reflexivity] |].
  split; [reflexivity | discriminate].
Qed.

Lemma C2_witness :
  exists d index,
    outcome (hourly_data pd.pandas_2 archive three_hours empty_store) = Ok (Some d)
    /\ dict_get d "date" = Some (Index index)
    /\ pd.to_list index = spec_axis 0 3600 3.
Proof.
  destruct (C2_axis_half_open pd.pandas_2 archive three_hours empty_store)
    as (d & index & Hout & Hdate & Haxis & _).
  - sample_in_range.
  - simpl; lia.
  - simpl; lia.
  - simpl; lia.
  - exists d, index. repeat split; assumption.
Defined.

Lemma C3_counterexample :
  in_range pd.pandas_2 air_unaligned
  /\ 0 < Interval air_unaligned
  /\ Time air_unaligned < TimeEnd air_unaligned
  /\ length (variables air_unaligned) = length (requested air_quality)
  /\ Forall (fun v => exists a, values v = Some a /\ length a = 2%nat)
            (variables air_unaligned)
  /\ 2 = (TimeEnd air_unaligned - Time air_unaligned) / Interval air_unaligned
  /\ exists d,
       outcome (hourly_data pd.pandas_2 air_quality air_unaligned empty_store)
       = Ok (Some d)
       /\ column_len d "date" = Some 3%nat
       /\ column_len d "pm10" = Some 2%nat.
Proof.
  split; [sample_in_range |].
  split; [reflexivity |]. split; [reflexivity |]. split; [reflexivity |].
  split; [repeat (constructor; [eexists; split; reflexivity |]); constructor |].
  split; [reflexivity |].
  eexists. split; [apply outcome_run; [simpl; lia | reflexivity] |].
  split; reflexivity.
Qed.

Lemma C3_witness :
  exists d,
    outcome (hourly_data pd.pandas_2 air_quality air_two_hours empty_store)
    = Ok (Some d)
    /\ column_len d "date" = Some 2%nat.
Proof.
  destruct (C3_axis_length pd.pandas_2 air_quality air_two_hours 2 empty_store)
    as (d & m & Hout & Hdate & _ & Haligned & _).
  - sample_in_range.
  - simpl; lia.
  - simpl; lia.
  - reflexivity.
  - sample_arrays.
  - reflexivity.
  - exists d. split; [exact Hout |].
    destruct (Haligned eq_refl) as [-> _]. exact Hdate.
Defined.

Lemma C4_counterexample :
  Interval negative_interval <= 0
  /\ outcome (hourly_data pd.pandas_2 archive negative_interval empty_store)
     = Ok (Some [("date", Index (pd.mkDatetimeIndex [] (Some pd.UTC)));
                 ("temperature_2m", Array [1; 2; 3]);
                 ("relative_humidity_2m", Array [4; 5; 6]);
                 ("rain", Array [7; 8; 9]);
                 ("dew_point_2m", Array [10; 11; 12])])
  /\ Interval zero_interval <= 0
  /\ outcome (hourly_data pd.pandas_2 archive zero_interval empty_store)
     = Raise ZeroDivisionError
  /\ outcome (hourly_data pd.pandas_2 archive zero_interval empty_store)
     <> Raise InvalidIntervalError.
Proof.
  split; [simpl; lia |].
  split; [run_sample |].
  split; [simpl; lia |].
  rewrite (hourly_data_raise pd.pandas_2 archive zero_interval empty_store
             ZeroDivisionError ltac:(simpl; lia) eq_refl).
  split; [reflexivity | discriminate].
Qed.

Lemma C4_witness :
  hourly_data pd.pandas_2 archive zero_interval empty_store
  = (Raise ZeroDivisionError, empty_store)
  /\ exists d index,
       outcome (hourly_data pd.pandas_2 archive negative_interval empty_store)
       = Ok (Some d)
       /\ dict_get d "date" = Some (Index index)
       /\ pd.to_list index = [].
Proof.
  split.
  - apply (C4_interval_not_positive pd.pandas_2 archive zero_interval empty_store);
      [sample_in_range | simpl; lia | simpl; lia | reflexivity].
  - destruct (C4_interval_not_positive pd.pandas_2 archive negative_interval
                empty_store) as [_ Hneg];
      [sample_in_range | simpl; lia | simpl; lia |].
    destruct Hneg as (d & index & Hout & Hdate & Hempty & _); [simpl; lia |].
    exists d, index. repeat split; [assumption | assumption |].
    apply Hempty. simpl; lia.
Defined.

Lemma C5_counterexample :
  outcome (hourly_data pd.pandas_2 archive lengths_5_4 empty_store)
  = Ok (Some [("date", Index (pd.mkDatetimeIndex
                 [0; 3600000000000; 7200000000000; 10800000000000; 14400000000000]
                 (Some pd.UTC)));
              ("temperature_2m", Array [1; 2; 3; 4; 5]);
              ("relative_humidity_2m", Array [6; 7; 8; 9]);
              ("rain", Array [1; 2; 3; 4; 5]);
              ("dew_point_2m", Array [1; 2; 3; 4; 5])]).
Proof. run_sample. Qed.

Lemma C5_witness :
  exists d,
    outcome (hourly_data pd.pandas_2 archive lengths_5_4 empty_store) = Ok (Some d)
    /\ column_len d "temperature_2m" = Some 5%nat
    /\ column_len d "relative_humidity_2m" = Some 4%nat.
Proof.
  destruct (C5_lengths_not_compared pd.pandas_2 archive lengths_5_4 empty_store 0 1
              "temperature_2m" "relative_humidity_2m"
              (sample_variable [1; 2; 3; 4; 5]) (sample_variable [6; 7; 8; 9])
              [1; 2; 3; 4; 5] [6; 7; 8; 9])
    as (d & Hout & Hi & Hj & _).
  - sample_in_range.
  - simpl; lia.
  - simpl; lia.
  - reflexivity.
  - reflexivity.
  - reflexivity.
  - reflexivity.
  - reflexivity.
  - reflexivity.
  - simpl; lia.
  - exists d. repeat split; assumption.
Defined.

Lemma C6_counterexample :
  TimeEnd backwards <= Time backwards
  /\ outcome (hourly_data pd.pandas_2 archive backwards empty_store)
     = Ok (Some [("date", Index (pd.mkDatetimeIndex [] (Some pd.UTC)));
                 ("temperature_2m", Array [1; 2; 3]);
                 ("relative_humidity_2m", Array [4; 5; 6]);
                 ("rain", Array [7; 8; 9]);
                 ("dew_point_2m", Array [10; 11; 12])]).
Proof.
  split; [simpl; lia |]. run_sample.
Qed.

Lemma C6_witness :
  exists d index,
    outcome (hourly_data pd.pandas_2 archive backwards empty_store) = Ok (Some d)
    /\ dict_get d "date" = Some (Index index)
    /\ pd.to_list index = [].
Proof.
  destruct (C6_range_not_validated pd.pandas_2 archive backwards empty_store)
    as (d & index & Hout & Hdate & Hempty & _).
  - sample_in_range.
  - simpl; lia.
  - simpl; lia.
  - simpl; lia.
  - exists d, index. repeat split; [assumption | assumption |].
    apply Hempty. simpl; lia.
Defined.

Lemma C7_witness :
  exists d,
    outcome (hourly_data pd.pandas_2 air_quality air_two_hours empty_store)
    = Ok (Some d)
    /\ forall i name,
         requested air_quality !! i = Some name ->
         exists v, variables air_two_hours !! i = Some v
                   /\ dict_get d name = Some (ValuesAsNumpy v).
Proof.
  apply (C7_request_order pd.pandas_2 air_quality air_two_hours empty_store);
    [sample_in_range | simpl; lia | simpl; lia].
Defined.

Lemma C8_witness :
  outcome (hourly_data pd.pandas_2 archive three_hours empty_store)
  = outcome (hourly_data pd.pandas_2 archive three_hours
               (<[1%positive := [("date", Array [0])]]> empty_store)).
Proof.
  apply (C8_deterministic pd.pandas_2 archive three_hours empty_store
           (<[1%positive := [("date", Array [0])]]> empty_store)).
Defined.

Lemma C9_witness :
  exists d index,
    outcome (hourly_data pd.pandas_2 archive three_hours empty_store) = Ok (Some d)
    /\ dict_get d "date" = Some (Index index)
    /\ pd.index_tz index = Some pd.UTC.
Proof.
  destruct (C9_axis_is_utc pd.pandas_2 archive three_hours empty_store)
    as (d & index & Hout & Hdate & Htz & _).
  - sample_in_range.
  - simpl; lia.
  - simpl; lia.
  - exists d, index. repeat split; assumption.
Defined.

Lemma C10_witness :
  exists d,
    outcome (hourly_data pd.pandas_2 air_quality air_two_hours empty_store)
    = Ok (Some d)
    /\ keys d = "date" :: requested air_quality
    /\ NoDup (keys d)
    /\ length (keys d) = 8%nat.
Proof.
  apply (C10_returned_keys pd.pandas_2 air_quality air_two_hours empty_store);
    [sample_in_range | simpl; lia | simpl; lia].
Defined.

(** ** The further properties on the sample responses *)

Lemma axis_is_progression_witness :
  exists d index,
    outcome (hourly_data pd.pandas_2 archive descending empty_store) = Ok (Some d)
    /\ dict_get d "date" = Some (Index index)
    /\ pd.to_list index
       = [pd.utc_instant 10800; pd.utc_instant 7200; pd.utc_instant 3600].
Proof.
  destruct (axis_is_progression pd.pandas_2 archive descending empty_store)
    as (d & index & Hout & Hdate & Haxis & _).
  - sample_in_range.
  - simpl; lia.
  - simpl; lia.
  - simpl; lia.
  - exists d, index. split; [exact Hout |]. split; [exact Hdate |].
    rewrite Haxis. reflexivity.
Defined.

Lemma axis_excludes_end_witness :
  exists d index,
    outcome (hourly_data pd.pandas_2 archive descending empty_store) = Ok (Some d)
    /\ dict_get d "date" = Some (Index index)
    /\ ~ (pd.utc_instant 0 ∈ pd.to_list index).
Proof.
  destruct (axis_excludes_end pd.pandas_2 archive descending empty_store)
    as (d & index & Hout & Hdate & Hend & _).
  - sample_in_range.
  - simpl; lia.
  - simpl; lia.
  - simpl; lia.
  - exists d, index. repeat split; assumption.
Defined.

Lemma axis_strictly_monotone_witness :
  exists d index,
    outcome (hourly_data pd.pandas_2 archive descending empty_store) = Ok (Some d)
    /\ dict_get d "date" = Some (Index index)
    /\ NoDup (pd.to_list index).
Proof.
  destruct (axis_strictly_monotone pd.pandas_2 archive descending empty_store)
    as (d & index & Hout & Hdate & Hnodup & _).
  - sample_in_range.
  - simpl; lia.
  - simpl; lia.
  - exists d, index. repeat split; assumption.
Defined.

Lemma axis_shared_by_both_functions_witness :
  exists d d' index,
    outcome (hourly_data pd.pandas_2 air_quality air_three_hours empty_store)
    = Ok (Some d)
    /\ outcome (hourly_data pd.pandas_2 archive three_hours empty_store)
       = Ok (Some d')
    /\ dict_get d "date" = Some (Index index)
    /\ dict_get d' "date" = Some (Index index).
Proof.
  apply (axis_shared_by_both_functions pd.pandas_2 air_quality archive
           air_three_hours three_hours empty_store empty_store);
    [sample_in_range | reflexivity | reflexivity | reflexivity
     | simpl; lia | simpl; lia | simpl; lia].
Defined.


Lemma successive_calls_do_not_share_witness :
  exists l1 s1 l2 s2 d,
    hourly_data pd.pandas_2 archive three_hours empty_store = (Ok l1, s1)
    /\ hourly_data pd.pandas_2 archive three_hours s1 = (Ok l2, s2)
    /\ l1 <> l2
    /\ s1 !! l1 = Some d
    /\ s2 !! l1 = Some d
    /\ s2 !! l2 = Some d.
Proof.
  apply (successive_calls_do_not_share pd.pandas_2 archive three_hours empty_store);
    [sample_in_range | simpl; lia | simpl; lia].
Defined.

Lemma first_response_assembled_witness :
  exists l d,
    get_history pd.pandas_2
      (answering [{| Hourly := three_hours |}; {| Hourly := backwards |}])
      archive 52 13 "2024-01-01" "2024-01-01" empty_store
    = (Ok l, <[l := d]> empty_store)
    /\ keys d = ["date"; "temperature_2m"; "relative_humidity_2m"; "rain";
                 "dew_point_2m"].
Proof.
  destruct (first_response_assembled pd.pandas_2
              (answering [{| Hourly := three_hours |}; {| Hourly := backwards |}])
              archive 52 13 "2024-01-01" "2024-01-01" empty_store empty_store
              {| Hourly := three_hours |} [{| Hourly := backwards |}])
    as (l & d & Hrun & _ & Hkeys & _).
  - reflexivity.
  - sample_in_range.
  - simpl; lia.
  - simpl; lia.
  - exists l, d. split; assumption.
Defined.

Lemma client_failures_pass_through_witness :
  get_history pd.pandas_2 (failing UpstreamFetchError) air_quality 52 13
    "2024-01-01" "2024-01-02" empty_store
  = (Raise UpstreamFetchError, empty_store)
  /\ get_history pd.pandas_2 (answering []) air_quality 52 13
       "2024-01-01" "2024-01-02" empty_store
     = (Raise IndexError, empty_store).
Proof.
  split.
  - apply (client_failures_pass_through pd.pandas_2 (failing UpstreamFetchError)
             air_quality 52 13 "2024-01-01" "2024-01-02" empty_store).
    reflexivity.
  - apply (client_failures_pass_through pd.pandas_2 (answering []) air_quality
             52 13 "2024-01-01" "2024-01-02" empty_store).
    reflexivity.
Defined.

(** ** Examples *)

(** The example of the specification: three hourly values of one variable
    come out at [T0], [T0 + 3600 s] and [T0 + 7200 s]. *)
Example three_hours_rain :
  outcome (hourly_data pd.pandas_2 archive three_hours empty_store)
  = Ok (Some [("date", Index (pd.mkDatetimeIndex [0; 3600000000000; 7200000000000]
                                (Some pd.UTC)));
              ("temperature_2m", Array [1; 2; 3]);
              ("relative_humidity_2m", Array [4; 5; 6]);
              ("rain", Array [7; 8; 9]);
              ("dew_point_2m", Array [10; 11; 12])]).
Proof. run_sample. Qed.

Example too_few_variables :
  hourly_data pd.pandas_2 air_quality three_hours empty_store
  = (Raise TypeError, empty_store).
Proof. reflexivity. Qed.

(** A start beyond the range of the release stops the call at the first
    conversion. *)
Example beyond_range_example :
  hourly_data pd.pandas_2 archive beyond_range empty_store
  = (Raise OutOfBoundsDatetime, empty_store).
Proof. reflexivity. Qed.

(** An end equal to the start: the instant is kept by a release that keeps
    equal end points, and dropped by one that does not. *)
Example same_instant_kept_example :
  hourly_date_range pd.pandas_2 same_instant
  = Ok (pd.mkDatetimeIndex [3600000000000] (Some pd.UTC)).
Proof. reflexivity. Qed.

Example same_instant_dropped_example :
  hourly_date_range dropping_release same_instant
  = Ok (pd.mkDatetimeIndex [] (Some pd.UTC)).
Proof. reflexivity. Qed.

(** A variable without a vector of values comes out as the integer 0. *)
Example missing_values_example :
  ValuesAsNumpy ({| values := None |} : @VariableWithValues Z) = Int 0.
Proof. reflexivity. Qed.

Example date_range_three_hours_example :
  pd.date_range pd.pandas_2 (pd.utc_instant 0) (pd.utc_instant 10800)
                (pd.Timedelta 3600) pd.closed_left
  = Ok (pd.mkDatetimeIndex [0; 3600000000000; 7200000000000] (Some pd.UTC)).
Proof. reflexivity. Qed.

Example date_range_unaligned_example :
  pd.date_range pd.pandas_2 (pd.utc_instant 0) (pd.utc_instant 10)
                (pd.Timedelta 3) pd.closed_left
  = Ok (pd.mkDatetimeIndex [0; 3000000000; 6000000000; 9000000000] (Some pd.UTC)).
Proof. reflexivity. Qed.

Example date_range_backwards_example :
  pd.date_range pd.pandas_2 (pd.utc_instant 10800) (pd.utc_instant 0)
                (pd.Timedelta 3600) pd.closed_left
  = Ok (pd.mkDatetimeIndex [] (Some pd.UTC)).
Proof. reflexivity. Qed.

Example date_range_negative_step_example :
  pd.date_range pd.pandas_2 (pd.utc_instant 0) (pd.utc_instant 10800)
                (pd.Timedelta (-3600)) pd.closed_left
  = Ok (pd.mkDatetimeIndex [] (Some pd.UTC)).
Proof. reflexivity. Qed.

Example date_range_zero_step_example :
  pd.date_range pd.pandas_2 (pd.utc_instant 0) (pd.utc_instant 10800)
                (pd.Timedelta 0) pd.closed_left
  = Raise ZeroDivisionError.
Proof. reflexivity. Qed.
